(** * The PoS spider of hepcrawl ([hepcrawl/spiders/pos_spider.py])

    A shallow embedding of [POSSpider]: the chained callbacks that turn
    one harvested record into a conference paper record and a
    proceedings record, and the field helpers they use.

    Text is modelled by [string]; the separators the code splits on
    ('/', '(' and ')') and the words it looks for ('pdf', 'en') are
    ASCII, and so is the text handed to [str.format] (identifiers and
    the pieces of a link).  Parsed markup is a tree of elements and text nodes, and the
    XPath queries of the source are evaluated on that tree in document
    order.  What the code takes from other packages (lxml and parsel,
    urlparse, and the helpers of hepcrawl that live in other files) is
    gathered in one record of collaborators.  The spider object is the
    dictionary of its attributes, as [__init__] leaves it: a method
    that reads an attribute the object does not have raises
    [AttributeError]. *)

From Stdlib Require Import String Ascii List ZArith Lia.
From stdpp Require Import base option gmap strings list.

(** ** Python values and exceptions *)

(** A value stored in a request's [meta] dictionary: the spider stores
    strings and, for [pos_id], possibly [None]. *)
Inductive pyval :=
| PyNone
| PyStr (s : string).

(** The two places where the spider raises its own exception. *)
Inductive pos_failure :=
| EmptyPaperPage (meta : gmap string pyval)
| NoPdfUrl (html : string).

Inductive exn :=
| PoSExtractionException (why : pos_failure)
| TypeError
| IndexError
| AttributeError
| ValueError
| KeyError
| ExternalError (what : string).

Inductive result (A : Type) :=
| Ok (a : A)
| Raise (e : exn).
Arguments Ok {A} a.
Arguments Raise {A} e.

#[export] Instance result_ret : MRet result := fun _ a => Ok a.
#[export] Instance result_bind : MBind result := fun _ _ f m =>
  match m with
  | Ok a => f a
  | Raise e => Raise e
  end.

(** ** Strings *)

(** [str.split(sep)] for a one-character separator and
    [re.split('[...]', s)] for a character class: the pieces between
    the separators, empty pieces kept. *)
Fixpoint split_on (sep : ascii -> bool) (s : string) : list string :=
  match s with
  | EmptyString => [EmptyString]
  | String c s' =>
      if sep c then EmptyString :: split_on sep s'
      else match split_on sep s' with
           | [] => [String c EmptyString]
           | w :: ws => String c w :: ws
           end
  end.

Definition is_slash (c : ascii) : bool := Ascii.eqb c "/".
Definition is_paren (c : ascii) : bool := Ascii.eqb c "(" || Ascii.eqb c ")".

(** XPath's [contains(s, sub)]. *)
Fixpoint contains (s sub : string) : bool :=
  String.prefix sub s ||
  match s with
  | EmptyString => false
  | String _ s' => contains s' sub
  end.

(** [l[i]] on a Python list. *)
Definition py_index {A} (l : list A) (i : nat) : result A :=
  match nth_error l i with
  | Some a => Ok a
  | None => Raise IndexError
  end.

(** How [str.format] prints a value that may be [None]. *)
Definition py_format (v : option string) : string :=
  match v with
  | Some s => s
  | None => "None"
  end.

(** [selector_list.extract_first()]. *)
Definition extract_first (l : list string) : option string := head l.

(** ** Parsed markup and the XPath queries of the spider *)

#[warnings="-register-all"]
Inductive node :=
| Text (s : string)
| Element (tag : string) (attrib : list (string * string)) (children : list node).

Definition tag_of (n : node) : string :=
  match n with
  | Text _ => ""
  | Element t _ _ => t
  end.

(** Every node of the subtree of [n], in document order, each with its
    ancestor elements inside the subtree, nearest first. *)
Fixpoint walk (anc : list node) (n : node) {struct n} : list (list node * node) :=
  (anc, n) ::
  match n with
  | Text _ => []
  | Element _ _ cs =>
      (fix walk_children (l : list node) : list (list node * node) :=
         match l with
         | [] => []
         | c :: l' => walk (n :: anc) c ++ walk_children l'
         end) cs
  end.

(** The start of a location path: [.//] from the context element (the
    first step is a proper descendant of it), or [//] from the document
    root (the first step may be the root element itself). *)
Inductive axis := Relative | Absolute.

Fixpoint strip_prefix (p l : list string) : option (list string) :=
  match p, l with
  | [], _ => Some l
  | x :: p', y :: l' => if String.eqb x y then strip_prefix p' l' else None
  | _ :: _, [] => None
  end.

(** [chain_ok ax path chain]: the tags [chain] (nearest element first)
    end a match of the child steps [path] (outermost first). *)
Definition chain_ok (ax : axis) (path : list string) (chain : list string) : bool :=
  match strip_prefix (rev path) chain with
  | Some rest =>
      match ax, rest with
      | Relative, [] => false
      | _, _ => true
      end
  | None => false
  end.

(** [.//t1/.../tk] or [//t1/.../tk]: the matching elements. *)
Definition xpath_elements (ax : axis) (path : list string) (ctx : node) : list node :=
  omap (fun '(anc, n) =>
          match n with
          | Element t _ _ =>
              if chain_ok ax path (t :: map tag_of anc) then Some n else None
          | Text _ => None
          end) (walk [] ctx).

(** [.//t1/.../tk/text()] or [//t1/.../tk/text()], extracted. *)
Definition xpath_text (ax : axis) (path : list string) (ctx : node) : list string :=
  omap (fun '(anc, n) =>
          match n with
          | Text s => if chain_ok ax path (map tag_of anc) then Some s else None
          | Element _ _ _ => None
          end) (walk [] ctx).

(** [.//t//text()]: the text nodes below an element [t] that is a
    proper descendant of the context element. *)
Fixpoint below (t : string) (chain : list string) : bool :=
  match chain with
  | [] => false
  | x :: rest =>
      (String.eqb x t && match rest with [] => false | _ :: _ => true end)
      || below t rest
  end.

Definition xpath_text_below (t : string) (ctx : node) : list string :=
  omap (fun '(anc, n) =>
          match n with
          | Text s => if below t (map tag_of anc) then Some s else None
          | Element _ _ _ => None
          end) (walk [] ctx).

(** The text-node children of an element: what [text()] selects. *)
Definition text_children (n : node) : list string :=
  match n with
  | Text _ => []
  | Element _ _ cs =>
      omap (fun c => match c with Text s => Some s | Element _ _ _ => None end) cs
  end.

(** XPath 1.0 turns the node-set [text()] into a string by taking its
    first node; an empty node-set gives the empty string. *)
Definition text_string (n : node) : string := default "" (head (text_children n)).

Definition get_attr (name : string) (n : node) : option string :=
  match n with
  | Text _ => None
  | Element _ attrs _ => snd <$> List.find (fun kv => String.eqb (fst kv) name) attrs
  end.

(** The predicate [@class='conference_date'] on an element. *)
Definition has_class (cls : string) (n : node) : bool :=
  match get_attr "class" n with
  | Some c => String.eqb c cls
  | None => false
  end.

(** [//a]: every anchor element of a page. *)
Definition anchors (page : node) : list node := xpath_elements Absolute ["a"] page.

(** The predicate [contains(text(),'pdf')] on an element. *)
Definition is_pdf_anchor (a : node) : bool := contains (text_string a) "pdf".

(** [//a[contains(text(),'pdf')]/@href], extracted. *)
Definition pdf_hrefs (page : node) : list string :=
  omap (get_attr "href") (List.filter is_pdf_anchor (anchors page)).

(** [//a[not(contains(text(),'pdf'))]/@href], extracted. *)
Definition non_pdf_hrefs (page : node) : list string :=
  omap (get_attr "href") (List.filter (fun a => negb (is_pdf_anchor a)) (anchors page)).

(** [//div[@class='conference_date']/text()], extracted. *)
Definition conference_date_text (page : node) : list string :=
  omap (fun '(anc, n) =>
          match n, anc with
          | Text s, parent :: _ =>
              if String.eqb (tag_of parent) "div" && has_class "conference_date" parent
              then Some s else None
          | _, _ => None
          end) (walk [] page).

(** ** Collaborators

    The functions the spider calls and that are defined elsewhere:
    parsel's [Selector] over lxml, [urlparse.urljoin], and hepcrawl's
    [get_licenses] and [create_valid_date]. *)
Record collaborators := {
  (** [Selector(text=..., type='xml')]: the root element *)
  Selector_xml : string -> node;
  (** [Selector(text=..., type='html')], also what [Selector(text=...)]
      builds when no type is given *)
  Selector_html : string -> node;
  (** [selector.remove_namespaces()] *)
  remove_namespaces : node -> node;
  (** [selector.extract()] on an element *)
  extract : node -> string;
  urljoin : string -> string -> string;
  get_licenses : option string -> result (list (gmap string string));
  create_valid_date : option string -> result (option string);
}.

(** Modelled from the spec: [get_first] of [hepcrawl.utils], "first
    matching text node, default empty string". *)
Definition get_first (l : list string) (default : string) : string :=
  match l with
  | [] => default
  | x :: _ => x
  end.

(** [int(s)] on ASCII text: blanks around an optional sign and at
    least one decimal digit. *)
Definition is_blank (c : ascii) : bool :=
  let n := nat_of_ascii c in (n =? 32)%nat || ((9 <=? n)%nat && (n <=? 13)%nat).

Fixpoint lstrip (s : string) : string :=
  match s with
  | String c s' => if is_blank c then lstrip s' else s
  | EmptyString => s
  end.

Fixpoint digits (acc : Z) (s : string) : option Z :=
  match s with
  | EmptyString => Some acc
  | String c s' =>
      let n := nat_of_ascii c in
      if (48 <=? n)%nat && (n <=? 57)%nat
      then digits (10 * acc + Z.of_nat (n - 48)) s'
      else if String.eqb (lstrip s) "" then Some acc else None
  end.

Definition unsigned (s : string) : option Z :=
  match s with
  | String c _ =>
      let n := nat_of_ascii c in
      if (48 <=? n)%nat && (n <=? 57)%nat then digits 0 s else None
  | EmptyString => None
  end.

Definition py_int (s : string) : result Z :=
  let parsed :=
    match lstrip s with
    | String "-" s' => Z.opp <$> unsigned s'
    | String "+" s' => unsigned s'
    | s' => unsigned s'
    end in
  match parsed with
  | Some z => Ok z
  | None => Raise ValueError
  end.

(** ** Output records *)

Record affiliation := { value : string }.

(** The dictionary [auth_dict] of [_get_authors]: a key is in the
    dictionary when its field is [Some]. *)
Record auth_dict := {
  raw_name : option string;
  affiliations : option (list affiliation);
}.

Record ext_system_number := { institute : string; esn_value : option string }.

Record fft_entry := { path : string }.

(** Modelled from the spec: the item classes [HEPRecord], [HEPLoader]
    and [ParsedItem] are defined in other files of hepcrawl.  The two
    record shapes follow sections 3 and 6 of the specification; each
    field holds the value the spider hands to the loader, and a field
    the loader is given [None] for is absent. *)
Record ConferencePaperRecord := {
  license : list (gmap string string);
  date_published : string;
  journal_year : Z;
  journal_title : string;
  journal_volume : string;
  journal_artid : string;
  title : list string;
  source : list string;
  external_system_numbers : list ext_system_number;
  language : option string;
  authors : list auth_dict;
  collections : list string;
  urls : list string;
  _fft : list fft_entry;
}.

Record ProceedingsRecord := {
  proceedings_collections : list string;
  proceedings_title : option string;
  subtitle : string;
  proceedings_journal_title : string;
  proceedings_journal_volume : string;
}.

Inductive HEPRecord :=
| ConferencePaper (r : ConferencePaperRecord)
| Proceedings (r : ProceedingsRecord).

Record ParsedItem := { record : HEPRecord; record_format : string }.

(** ** Requests and responses *)

Inductive callback := parse_conference_paper_cb | parse_conference_proceedings_cb.

Record Request := {
  url : string;
  callback_of : callback;
  meta : gmap string pyval;
}.

Record Response := {
  response_url : string;
  body : string;
  response_meta : gmap string pyval;
}.

(** What a callback yields. *)
Inductive output :=
| Item (i : ParsedItem)
| Req (r : Request).

(** A generator that is run to its end: what it yielded, and the
    exception that stopped it, if one did. *)
Definition generated := (list output * option exn)%type.

Definition DEFAULT_BASE_URL : string := "https://pos.sissa.it".
Definition DEFAULT_BASE_CONFERENCE_PAPER_URL : string :=
  DEFAULT_BASE_URL +:+ "/contribution?id=".
Definition DEFAULT_BASE_PROCEEDINGS_URL : string :=
  DEFAULT_BASE_URL +:+ "/cgi-bin/reader/conf.cgi?confid=".

(** ** The spider object

    A spider is the dictionary of its attributes.  Reading an
    attribute that the object does not have raises [AttributeError]. *)
Definition getattr (self : gmap string pyval) (name : string) : result pyval :=
  match self !! name with
  | Some v => Ok v
  | None => Raise AttributeError
  end.

(** The value of a keyword parameter of a call: the argument of that
    name, or the default of the parameter. *)
Definition parameter (args : gmap string pyval) (name : string) (dflt : pyval) : pyval :=
  default dflt (args !! name).

(** [POSSpider.__init__], called with the keyword arguments [args].
    The three named parameters are taken out of the arguments; what is
    left is [kwargs] and goes to the constructor of the base class
    ([StatefulSpider] over scrapy's [Spider], neither of them in this
    file), which keeps it as attributes of the object, beside the
    class attribute [name].  Then the three parameters are stored: the
    two base URLs under the upper-case names
    [BASE_CONFERENCE_PAPER_URL] and [BASE_PROCEEDINGS_URL]. *)
Definition __init__ (args : gmap string pyval) : gmap string pyval :=
  let source_file := parameter args "source_file" PyNone in
  let base_conference_paper_url :=
    parameter args "base_conference_paper_url"
      (PyStr DEFAULT_BASE_CONFERENCE_PAPER_URL) in
  let base_proceedings_url :=
    parameter args "base_proceedings_url" (PyStr DEFAULT_BASE_PROCEEDINGS_URL) in
  let kwargs :=
    delete "source_file"
      (delete "base_conference_paper_url" (delete "base_proceedings_url" args)) in
  let self := kwargs ∪ {[ "name" := PyStr "pos" ]} in
  <["BASE_PROCEEDINGS_URL" := base_proceedings_url]>
    (<["BASE_CONFERENCE_PAPER_URL" := base_conference_paper_url]>
       (<["source_file" := source_file]> self)).

(** [Selector(text=v, ...)] where [v] comes out of [meta.get]: parsel
    refuses to build a selector from [None]. *)
Definition selector_text (v : option pyval) : result string :=
  match v with
  | Some (PyStr s) => Ok s
  | _ => Raise ValueError
  end.

Definition to_pyval (v : option string) : pyval :=
  match v with
  | Some s => PyStr s
  | None => PyNone
  end.

Definition of_pyval (v : pyval) : option string :=
  match v with
  | PyStr s => Some s
  | PyNone => None
  end.

(** How [str.format] prints an attribute. *)
Definition py_str (v : pyval) : string := py_format (of_pyval v).

(** ** The spider *)

Section Spider.

Variable lib : collaborators.
Variable self : gmap string pyval.

Definition identifier_path : list string := ["metadata"; "pex-dc"; "identifier"].
Definition language_path : list string := ["metadata"; "pex-dc"; "language"].

(** [re.split('[()]', pos_ext_identifier)]: a [TypeError] on [None]. *)
Definition re_split_parens (pos_ext_identifier : option string) : result (list string) :=
  match pos_ext_identifier with
  | Some s => Ok (split_on is_paren s)
  | None => Raise TypeError
  end.

Definition _get_journal_title (pos_ext_identifier : option string) : result string :=
  parts ← re_split_parens pos_ext_identifier; py_index parts 0.

Definition _get_journal_volume (pos_ext_identifier : option string) : result string :=
  parts ← re_split_parens pos_ext_identifier; py_index parts 1.

Definition _get_journal_artid (pos_ext_identifier : option string) : result string :=
  parts ← re_split_parens pos_ext_identifier; py_index parts 2.

Definition _set_fft (p : string) : list fft_entry := [ {| path := p |} ].

Definition _get_language (selector : node) : option string :=
  let language :=
    extract_first (xpath_text Relative language_path selector) in
  match language with
  | Some l => if String.eqb l "en" then None else language
  | None => language
  end.

Definition _get_ext_systems_number (selector : node) : list ext_system_number :=
  [ {| institute := "pos";
       esn_value := extract_first (xpath_text Relative ["identifier"] selector) |} ].

Definition _get_date (selector : node) : result (string * Z) :=
  let full_date :=
    extract_first (xpath_text Relative ["metadata"; "pex-dc"; "date"] selector) in
  date ← create_valid_date lib full_date;
  match date with
  | None => Raise TypeError
  | Some d => year ← py_int (String.substring 0 4 d); Ok (d, year)
  end.

Definition empty_dict : auth_dict := {| raw_name := None; affiliations := None |}.

Definition set_raw_name (d : auth_dict) (name : string) : auth_dict :=
  {| raw_name := Some name; affiliations := affiliations d |}.

(** The body of the inner loop of [_get_authors]. *)
Definition add_affiliation (d : auth_dict) (aff : string) : auth_dict :=
  match affiliations d with
  | Some l =>
      {| raw_name := raw_name d; affiliations := Some (l ++ [ {| value := aff |} ]) |}
  | None =>
      {| raw_name := raw_name d; affiliations := Some [ {| value := aff |} ] |}
  end.

(** Truthiness of the dictionary: it has a key. *)
Definition dict_nonempty (d : auth_dict) : bool :=
  bool_decide (is_Some (raw_name d)) || bool_decide (is_Some (affiliations d)).

(** One turn of the outer loop of [_get_authors], up to the test. *)
Definition author_of (creator : node) : auth_dict :=
  let author := Selector_html lib (extract lib creator) in
  let d := set_raw_name empty_dict (get_first (xpath_text_below "name" author) "") in
  fold_left add_affiliation (xpath_text_below "affiliation" author) d.

Definition _get_authors (selector : node) : list auth_dict :=
  let creators := xpath_elements Relative ["metadata"; "pex-dc"; "creator"] selector in
  fold_left (fun authors creator =>
               let d := author_of creator in
               if dict_nonempty d then authors ++ [d] else authors)
            creators [].

Definition _get_proceedings_title (selector : node) : option string :=
  extract_first (xpath_text Absolute ["h1"] selector).

Definition _get_proceedings_date_place (selector : node) : string :=
  String.concat "" (conference_date_text selector).

(** [urljoin(base, url)] on an attribute: [urlparse.urljoin] returns
    the URL as it is when the base is [None]. *)
Definition py_urljoin (base : pyval) (rel : string) : string :=
  match base with
  | PyStr b => urljoin lib b rel
  | PyNone => rel
  end.

Definition _get_conference_paper_pdf_url (conference_paper_page_html : string) : result string :=
  let selector := Selector_html lib conference_paper_page_html in
  match extract_first (pdf_hrefs selector) with
  | None => Raise (PoSExtractionException (NoPdfUrl conference_paper_page_html))
  | Some rel =>
      if String.eqb rel ""
      then Raise (PoSExtractionException (NoPdfUrl conference_paper_page_html))
      else
        base_conference_paper_url ← getattr self "base_conference_paper_url";
        Ok (py_urljoin base_conference_paper_url rel)
  end.

(** The id that both proceedings methods take from the page:
    [internal_url.split('/')[1]], where [internal_url] is [None] when
    the query finds nothing. *)
Definition proceedings_internal_id (page_selector : node) : result string :=
  match extract_first (non_pdf_hrefs page_selector) with
  | None => Raise AttributeError
  | Some internal_url => py_index (split_on is_slash internal_url) 1
  end.

Definition _get_proceedings_page_url (page_html : string) : result string :=
  let page_selector := Selector_html lib page_html in
  proceedings_internal_id ← proceedings_internal_id page_selector;
  base_proceedings_url ← getattr self "base_proceedings_url";
  Ok (py_str base_proceedings_url +:+ proceedings_internal_id).

(** [_get_proceedings_url], the method that takes the response and not
    its body: the same query on [response.selector], with the
    attribute [BASE_PROCEEDINGS_URL]. *)
Definition _get_proceedings_url (selector : node) : result string :=
  proceedings_identifier ← proceedings_internal_id selector;
  BASE_PROCEEDINGS_URL ← getattr self "BASE_PROCEEDINGS_URL";
  Ok (py_str BASE_PROCEEDINGS_URL +:+ proceedings_identifier).

Definition build_conference_paper_item
    (xml_record : option pyval) (conference_paper_url conference_paper_pdf_url : string)
    : result ParsedItem :=
  text ← selector_text xml_record;
  let selector := remove_namespaces lib (Selector_xml lib text) in
  let license_text :=
    extract_first (xpath_text Relative ["metadata"; "pex-dc"; "rights"] selector) in
  licenses ← get_licenses lib license_text;
  '(date, year) ← _get_date selector;
  let identifier := extract_first (xpath_text Relative identifier_path selector) in
  jtitle ← _get_journal_title identifier;
  jvolume ← _get_journal_volume identifier;
  jartid ← _get_journal_artid identifier;
  Ok {| record := ConferencePaper
          {| license := licenses;
             date_published := date;
             journal_year := year;
             journal_title := jtitle;
             journal_volume := jvolume;
             journal_artid := jartid;
             title := xpath_text Absolute ["metadata"; "pex-dc"; "title"] selector;
             source := xpath_text Absolute ["metadata"; "pex-dc"; "publisher"] selector;
             external_system_numbers := _get_ext_systems_number selector;
             language := _get_language selector;
             authors := _get_authors selector;
             collections := ["conferencepaper"];
             urls := [conference_paper_url];
             _fft := _set_fft conference_paper_pdf_url |};
        record_format := "hepcrawl" |}.

Definition build_conference_proceedings_item
    (proceedings_page_html : string) (pos_id : option string) : result ParsedItem :=
  let selector := remove_namespaces lib (Selector_html lib proceedings_page_html) in
  jvolume ← _get_journal_volume pos_id;
  Ok {| record := Proceedings
          {| proceedings_collections := ["proceeding"];
             proceedings_title := _get_proceedings_title selector;
             subtitle := _get_proceedings_date_place selector;
             proceedings_journal_title := "PoS";
             proceedings_journal_volume := jvolume |};
        record_format := "hepcrawl" |}.

(** [meta = meta or {}]. *)
Definition meta_or_empty (m : option (gmap string pyval)) : gmap string pyval :=
  match m with
  | Some d => if bool_decide (d = ∅) then ∅ else d
  | None => ∅
  end.

Definition get_conference_paper_page_request
    (xml_selector : node) (m : option (gmap string pyval)) : result Request :=
  let meta0 := meta_or_empty m in
  let identifier := extract_first (xpath_text Relative identifier_path xml_selector) in
  base_conference_paper_url ← getattr self "base_conference_paper_url";
  let conference_paper_url :=
    py_str base_conference_paper_url +:+ py_format identifier in
  Ok {| url := conference_paper_url;
        callback_of := parse_conference_paper_cb;
        meta := <["xml_record" := PyStr (extract lib xml_selector)]> meta0 |}.

(** The identifier that [get_conference_proceedings_page_request]
    stores as [pos_id]: the one of the record kept in the context,
    parsed again. *)
Definition stored_pos_id (m : gmap string pyval) : result (option string) :=
  text ← selector_text (m !! "xml_record");
  let page_selector := remove_namespaces lib (Selector_xml lib text) in
  Ok (extract_first (xpath_text Relative identifier_path page_selector)).

Definition get_conference_proceedings_page_request (m : gmap string pyval) : result Request :=
  match m !! "html_record" with
  | Some (PyStr html) =>
      if String.eqb html "" then Raise (PoSExtractionException (EmptyPaperPage m))
      else
        proceedings_page_url ← _get_proceedings_page_url html;
        pos_id ← stored_pos_id m;
        Ok {| url := proceedings_page_url;
              callback_of := parse_conference_proceedings_cb;
              meta := <["pos_id" := to_pyval pos_id]> m |}
  | _ => Raise (PoSExtractionException (EmptyPaperPage m))
  end.

(** The paper item of [parse_conference_paper], built before the first
    [yield]. *)
Definition parsed_conference_paper (response : Response) : result ParsedItem :=
  conference_paper_pdf_url ← _get_conference_paper_pdf_url (body response);
  build_conference_paper_item
    (response_meta response !! "xml_record") (response_url response)
    conference_paper_pdf_url.

(** [response.meta['html_record'] = response.body]. *)
Definition set_html_record (response : Response) : gmap string pyval :=
  <["html_record" := PyStr (body response)]> (response_meta response).

Definition parse_conference_paper (response : Response) : generated :=
  match parsed_conference_paper response with
  | Raise e => ([], Some e)
  | Ok item =>
      match get_conference_proceedings_page_request (set_html_record response) with
      | Raise e => ([Item item], Some e)
      | Ok request => ([Item item; Req request], None)
      end
  end.

Definition parse_conference_proceedings (request : Response) : generated :=
  match response_meta request !! "pos_id" with
  | None => ([], Some KeyError)
  | Some pos_id =>
      match build_conference_proceedings_item (body request) (of_pyval pos_id) with
      | Raise e => ([], Some e)
      | Ok item => ([Item item], None)
      end
  end.

(** A generator that yields the request of each step in turn and
    stops at the first step that raises. *)
Fixpoint yield_requests (steps : list (result Request)) : generated :=
  match steps with
  | [] => ([], None)
  | Ok request :: rest =>
      let '(outputs, err) := yield_requests rest in (Req request :: outputs, err)
  | Raise e :: _ => ([], Some e)
  end.

(** [parse]: the request of each [record] element below the root. *)
Definition parse (response : Response) : generated :=
  let selector := remove_namespaces lib (Selector_xml lib (body response)) in
  yield_requests
    (map (fun record_xml_selector =>
            get_conference_paper_page_request record_xml_selector None)
         (xpath_elements Relative ["record"] selector)).

End Spider.


(** The requests among what a callback yielded. *)
Definition requests (outputs : list output) : list Request :=
  omap (fun o => match o with Req r => Some r | Item _ => None end) outputs.

(** ** Sample documents

    Concrete collaborators, enough for the markup used below: a
    serializer for trees without namespaces and parsers that know the
    sample documents. *)
Module Sample.

Definition dquote : string := String (ascii_of_nat 34) EmptyString.

Definition attr_markup (kv : string * string) : string :=
  " " +:+ fst kv +:+ "=" +:+ dquote +:+ snd kv +:+ dquote.

(** [etree.tostring] on a tree whose text needs no escaping. *)
Fixpoint tostring (n : node) : string :=
  match n with
  | Text s => s
  | Element t attrs [] =>
      "<" +:+ t +:+ String.concat "" (map attr_markup attrs) +:+ "/>"
  | Element t attrs cs =>
      "<" +:+ t +:+ String.concat "" (map attr_markup attrs) +:+ ">"
      +:+ String.concat "" (map tostring cs)
      +:+ "</" +:+ t +:+ ">"
  end.

Definition el (t : string) (cs : list node) : node := Element t [] cs.
Definition field (t s : string) : node := el t [Text s].

Definition creator_doe : node :=
  el "creator" [field "name" "Doe, J."; field "affiliation" "CERN";
                field "affiliation" "SISSA"].
Definition creator_empty : node := el "creator" [].

Definition record_with (fields : list node) : node :=
  el "record" [el "metadata" [el "pex-dc" fields]].

(** A well-formed record, in French. *)
Definition paper : node :=
  record_with [field "identifier" "JHEP01(2016)001"; field "title" "A title";
               field "date" "2016-03-04"; field "language" "fr"; creator_doe].

(** The same record with a second creator element that has no content. *)
Definition paper_empty_creator : node :=
  record_with [field "identifier" "JHEP01(2016)001"; field "title" "A title";
               field "date" "2016-03-04"; field "language" "fr";
               creator_doe; creator_empty].

(** A record whose identifier has no parenthesis. *)
Definition paper_flat_identifier : node :=
  record_with [field "identifier" "JHEP01"; field "title" "A title";
               field "date" "2016-03-04"; field "language" "en"].

(** A record without identifier. *)
Definition paper_no_identifier : node :=
  record_with [field "title" "A title"; field "date" "2016-03-04"].

Definition known_xml : list node :=
  [paper; paper_empty_creator; paper_flat_identifier; paper_no_identifier].

Definition known_creators : list node := [creator_doe; creator_empty].

Definition lookup_markup (known : list node) (text : string) : option node :=
  List.find (fun n => String.eqb (tostring n) text) known.

(** The paper page of the specification's examples, and what lxml's
    HTML parser makes of it. *)
Definition paper_page_html : string :=
  "<a href='/999/pdf'>pdf</a><a href='/contrib/001'>details</a>".
Definition paper_page : node :=
  el "html" [el "body" [Element "a" [("href", "/999/pdf")] [Text "pdf"];
                        Element "a" [("href", "/contrib/001")] [Text "details"]]].

(** A paper page with the pdf link only. *)
Definition pdf_only_html : string := "<a href='/999/pdf'>pdf</a>".
Definition pdf_only_page : node :=
  el "html" [el "body" [Element "a" [("href", "/999/pdf")] [Text "pdf"]]].

Definition proceedings_html : string :=
  "<h1>Lattice 2013</h1><div class='conference_date'>July 2013, Mainz</div>".
Definition proceedings_page : node :=
  el "html" [el "body" [field "h1" "Lattice 2013";
                        Element "div" [("class", "conference_date")]
                                [Text "July 2013, Mainz"]]].

(** A page without any link. *)
Definition no_link_html : string := "<p>moved</p>".
Definition no_link_page : node := el "html" [el "body" [field "p" "moved"]].

Definition parse_html (text : string) : node :=
  if String.eqb text paper_page_html then paper_page
  else if String.eqb text pdf_only_html then pdf_only_page
  else if String.eqb text proceedings_html then proceedings_page
  else if String.eqb text no_link_html then no_link_page
  else match lookup_markup known_creators text with
       | Some c => el "html" [el "body" [c]]
       | None => el "html" []
       end.

Definition parse_xml (text : string) : node :=
  default (el "unknown" []) (lookup_markup known_xml text).

(** [urljoin] of the default base with a reference that starts with a
    slash: the reference replaces the path. *)
Definition join (base ref : string) : string :=
  if String.prefix "/" ref then DEFAULT_BASE_URL +:+ ref else ref.

Definition lib : collaborators :=
  {| Selector_xml := parse_xml;
     Selector_html := parse_html;
     remove_namespaces := fun n => n;
     extract := tostring;
     urljoin := join;
     get_licenses := fun _ => Ok [];
     create_valid_date := fun d => Ok d |}.

(** The spider as the command line makes it, without arguments. *)
Definition spider : gmap string pyval := __init__ ∅.

Definition paper_url : string := DEFAULT_BASE_CONFERENCE_PAPER_URL +:+ "JHEP01(2016)001".

Definition doe_entry : auth_dict :=
  {| raw_name := Some "Doe, J.";
     affiliations := Some [ {| value := "CERN" |}; {| value := "SISSA" |} ] |}.

(** The paper record of [paper], for a response at [paper_url] and
    the pdf link of [paper_page]. *)
Definition paper_record : ConferencePaperRecord :=
  {| license := [];
     date_published := "2016-03-04";
     journal_year := 2016;
     journal_title := "JHEP01";
     journal_volume := "2016";
     journal_artid := "001";
     title := ["A title"];
     source := [];
     external_system_numbers :=
       [ {| institute := "pos"; esn_value := Some "JHEP01(2016)001" |} ];
     language := Some "fr";
     authors := [doe_entry];
     collections := ["conferencepaper"];
     urls := [paper_url];
     _fft := [ {| path := "https://pos.sissa.it/999/pdf" |} ] |}.

Definition paper_item : ParsedItem :=
  {| record := ConferencePaper paper_record; record_format := "hepcrawl" |}.

(** The response that the callback of the paper page is called with
    for [paper]: the page at [paper_url], with the record in its
    context. *)
Definition paper_response : Response :=
  {| response_url := paper_url;
     body := paper_page_html;
     response_meta := {[ "xml_record" := PyStr (tostring paper) ]} |}.

(** The same, when the site answers with a page that has no link. *)
Definition no_link_response : Response :=
  {| response_url := paper_url;
     body := no_link_html;
     response_meta := {[ "xml_record" := PyStr (tostring paper) ]} |}.

(** The response that the callback of the proceedings page is called
    with, and the same response with an entry that the downloader
    added to its context. *)
Definition proceedings_response : Response :=
  {| response_url := DEFAULT_BASE_PROCEEDINGS_URL +:+ "contrib";
     body := proceedings_html;
     response_meta := {[ "pos_id" := PyStr "JHEP01(2016)001" ]} |}.


End Sample.

(** ** Notions used in the statements *)

(** [free_of sep s]: no character of [s] is a separator. *)
Fixpoint free_of (sep : ascii -> bool) (s : string) : bool :=
  match s with
  | EmptyString => true
  | String c s' => negb (sep c) && free_of sep s'
  end.

(** The number of separators in [s]. *)
Fixpoint count_sep (sep : ascii -> bool) (s : string) : nat :=
  match s with
  | EmptyString => 0
  | String c s' => (if sep c then 1 else 0) + count_sep sep s'
  end.

(** The proper descendants of a node, in document order. *)
Definition descendants (n : node) : list node := map snd (tail (walk [] n)).

Definition is_element_named (t : string) (n : node) : bool :=
  match n with
  | Element tag _ _ => String.eqb t tag
  | Text _ => false
  end.

(** Collaborators whose parsers return one given tree, for runs in
    which only one document is parsed. *)
Module Parsed.

Definition lib (document : node) : collaborators :=
  {| Selector_xml := fun _ => document;
     Selector_html := fun _ => document;
     remove_namespaces := fun n => n;
     extract := Sample.tostring;
     urljoin := Sample.join;
     get_licenses := fun _ => Ok [];
     create_valid_date := fun d => Ok d |}.

(** A page whose only link besides the pdf link is a relative one. *)
Definition relative_link_page : node :=
  Sample.el "html"
    [Sample.el "body"
       [Element "a" [("href", "/999/pdf")] [Text "pdf"];
        Element "a" [("href", "index.html")] [Text "home"]]].

(** A page with one anchor: the pdf link. *)
Definition one_anchor_page : node := Sample.pdf_only_page.

(** A harvested record as OAI-PMH delivers it: the header has an
    identifier of its own, before the one of the metadata. *)
Definition oai_record : node :=
  Sample.el "record"
    [Sample.el "header" [Sample.field "identifier" "oai:pos.sissa.it:LATTICE 2013/001"];
     Sample.el "metadata"
       [Sample.el "pex-dc"
          [Sample.field "identifier" "PoS(LATTICE 2013)001";
           Sample.field "date" "2014-01-01"]]].

(** An envelope with two records. *)
Definition envelope : node :=
  Sample.el "ListRecords" [Sample.paper; Sample.paper_no_identifier].


(** A page whose first pdf anchor has an empty href, before one that
    has a link. *)
Definition empty_href_page : node :=
  Sample.el "html"
    [Sample.el "body"
       [Element "a" [("href", "")] [Text "pdf (soon)"];
        Element "a" [("href", "/999/pdf")] [Text "pdf"]]].

End Parsed.

(** * Properties *)

(** ** Splitting *)

Lemma split_on_free sep s : free_of sep s = true -> split_on sep s = [s].
Proof.
  induction s as [|c s IH]; simpl; [reflexivity|].
  intros [Hc Hs]%andb_prop.
  apply negb_true_iff in Hc. rewrite Hc, (IH Hs). reflexivity.
Qed.

(** A separator after a separator-free piece ends that piece. *)
Lemma split_on_app sep a c b :
  free_of sep a = true -> sep c = true ->
  split_on sep (a +:+ String c b) = a :: split_on sep b.
Proof.
  intros Ha Hc. induction a as [|x a IH]; simpl in *.
  - rewrite Hc. reflexivity.
  - apply andb_prop in Ha as [Hx Ha]. apply negb_true_iff in Hx.
    rewrite Hx, (IH Ha). reflexivity.
Qed.


Lemma py_index_Raise {A} (l : list A) i : (length l <= i)%nat -> py_index l i = Raise IndexError.
Proof.
  intros H. unfold py_index.
  apply nth_error_None in H. rewrite H. reflexivity.
Qed.


(** An identifier of the shape [t(v)a] splits into its three parts. *)
Lemma split_three t v a :
  free_of is_paren t = true -> free_of is_paren v = true -> free_of is_paren a = true ->
  split_on is_paren (t +:+ "(" +:+ v +:+ ")" +:+ a) = [t; v; a].
Proof.
  intros Ht Hv Ha.
  change ("(" +:+ v +:+ ")" +:+ a) with (String "("%char (v +:+ String ")"%char a)).
  rewrite split_on_app by (assumption || reflexivity).
  rewrite split_on_app by (assumption || reflexivity).
  rewrite split_on_free by assumption. reflexivity.
Qed.

(** ** Journal reference *)

(** C4: the identifier is split at every parenthesis and the first
    three pieces are the journal title, volume and article id; with
    fewer than three pieces the lookup of the missing piece raises
    [IndexError], and nothing stands in for it; pieces after the third
    are not looked at.  An identifier of the shape [t(v)a] has exactly
    the pieces [t], [v] and [a], as "JHEP01(2016)001" shows. *)
Theorem journal_decomposition :
  (forall s : string,
      match split_on is_paren s with
      | t :: v :: a :: _ =>
          _get_journal_title (Some s) = Ok t
          /\ _get_journal_volume (Some s) = Ok v
          /\ _get_journal_artid (Some s) = Ok a
      | [t; v] =>
          _get_journal_title (Some s) = Ok t
          /\ _get_journal_volume (Some s) = Ok v
          /\ _get_journal_artid (Some s) = Raise IndexError
      | _ =>
          _get_journal_volume (Some s) = Raise IndexError
          /\ _get_journal_artid (Some s) = Raise IndexError
      end)
  /\ (forall t v a : string,
         free_of is_paren t = true -> free_of is_paren v = true ->
         free_of is_paren a = true ->
         let s := t +:+ "(" +:+ v +:+ ")" +:+ a in
         split_on is_paren s = [t; v; a]
         /\ _get_journal_title (Some s) = Ok t
         /\ _get_journal_volume (Some s) = Ok v
         /\ _get_journal_artid (Some s) = Ok a)
  /\ (_get_journal_title (Some "JHEP01(2016)001") = Ok "JHEP01"
      /\ _get_journal_volume (Some "JHEP01(2016)001") = Ok "2016"
      /\ _get_journal_artid (Some "JHEP01(2016)001") = Ok "001").
Proof.
  split; [|split].
  - intros s. unfold _get_journal_title, _get_journal_volume, _get_journal_artid.
    simpl. destruct (split_on is_paren s) as [|t [|v [|a rest]]]; simpl; auto.
  - intros t v a Ht Hv Ha s.
    unfold _get_journal_title, _get_journal_volume, _get_journal_artid.
    simpl. subst s. rewrite (split_three t v a Ht Hv Ha). simpl. auto.
  - repeat split; reflexivity.
Qed.

Lemma bind_Ok {A B} (f : A -> result B) (a : A) : Ok a ≫= f = f a.
Proof. reflexivity. Qed.

(** ** The attributes of the spider *)

Lemma getattr_Some self name v : self !! name = Some v -> getattr self name = Ok v.
Proof. unfold getattr. intros ->. reflexivity. Qed.

Lemma getattr_None self name : self !! name = None -> getattr self name = Raise AttributeError.
Proof. unfold getattr. intros ->. reflexivity. Qed.


(** [__init__] leaves the two base URLs under their upper-case names
    only: whatever the arguments, the object has no attribute
    [base_conference_paper_url] and no attribute
    [base_proceedings_url]. *)
Lemma init_base_conference_paper_url args :
  getattr (__init__ args) "base_conference_paper_url" = Raise AttributeError.
Proof.
  apply getattr_None. unfold __init__. cbv zeta.
  rewrite !lookup_insert_ne by done.
  apply lookup_union_None. split; [|done].
  rewrite lookup_delete_ne by done. apply lookup_delete_eq.
Qed.

Lemma init_base_proceedings_url args :
  getattr (__init__ args) "base_proceedings_url" = Raise AttributeError.
Proof.
  apply getattr_None. unfold __init__. cbv zeta.
  rewrite !lookup_insert_ne by done.
  apply lookup_union_None. split; [|done].
  rewrite !lookup_delete_ne by done. apply lookup_delete_eq.
Qed.

Lemma init_BASE_PROCEEDINGS_URL args :
  getattr (__init__ args) "BASE_PROCEEDINGS_URL"
  = Ok (parameter args "base_proceedings_url" (PyStr DEFAULT_BASE_PROCEEDINGS_URL)).
Proof. apply getattr_Some. unfold __init__. cbv zeta. apply lookup_insert_eq. Qed.



(** ** Proceedings link *)



Lemma _get_proceedings_page_url_init lib args html :
  _get_proceedings_page_url lib (__init__ args) html
  = match proceedings_internal_id (Selector_html lib html) with
    | Ok _ => Raise AttributeError
    | Raise e => Raise e
    end.
Proof.
  unfold _get_proceedings_page_url.
  destruct (proceedings_internal_id _) as [seg|e]; [|reflexivity].
  rewrite bind_Ok, init_base_proceedings_url. reflexivity.
Qed.

Lemma _get_proceedings_url_init args page :
  _get_proceedings_url (__init__ args) page
  = match proceedings_internal_id page with
    | Ok seg =>
        Ok (py_str (parameter args "base_proceedings_url"
                      (PyStr DEFAULT_BASE_PROCEEDINGS_URL)) +:+ seg)
    | Raise e => Raise e
    end.
Proof.
  unfold _get_proceedings_url.
  destruct (proceedings_internal_id _) as [seg|e]; [|reflexivity].
  rewrite bind_Ok, init_BASE_PROCEEDINGS_URL. reflexivity.
Qed.


(** ** Building the paper record *)

Section Records.

Variable lib : collaborators.

(** What a paper item that was built is made of. *)
Lemma build_conference_paper_item_Ok xml_record u pdf item :
  build_conference_paper_item lib xml_record u pdf = Ok item ->
  exists text s t v a rest r,
    xml_record = Some (PyStr text)
    /\ extract_first (xpath_text Relative identifier_path
                        (remove_namespaces lib (Selector_xml lib text))) = Some s
    /\ split_on is_paren s = t :: v :: a :: rest
    /\ record item = ConferencePaper r
    /\ journal_title r = t /\ journal_volume r = v /\ journal_artid r = a
    /\ language r = _get_language (remove_namespaces lib (Selector_xml lib text))
    /\ authors r = _get_authors lib (remove_namespaces lib (Selector_xml lib text))
    /\ urls r = [u] /\ _fft r = [ {| path := pdf |} ].
Proof.
  unfold build_conference_paper_item.
  destruct xml_record as [[|text]|]; simpl; try discriminate.
  destruct (get_licenses lib _) as [licenses|]; simpl; try discriminate.
  destruct (_get_date lib _) as [[date year]|]; simpl; try discriminate.
  destruct (extract_first (xpath_text Relative identifier_path _)) as [s|] eqn:Hs;
    simpl; try discriminate.
  unfold _get_journal_title, _get_journal_volume, _get_journal_artid. simpl.
  destruct (split_on is_paren s) as [|t [|v [|a rest]]] eqn:Hparts;
    simpl; try discriminate.
  intros [= <-]. simpl.
  eexists text, s, t, v, a, rest, _. repeat split; try reflexivity; assumption.
Qed.

(** A paper item is built whenever the licenses and the date are
    obtained and the identifier has three pieces at least. *)
Lemma build_conference_paper_item_succeeds text u pdf licenses date year s t v a rest :
  let selector := remove_namespaces lib (Selector_xml lib text) in
  get_licenses lib
    (extract_first (xpath_text Relative ["metadata"; "pex-dc"; "rights"] selector))
  = Ok licenses ->
  _get_date lib selector = Ok (date, year) ->
  extract_first (xpath_text Relative identifier_path selector) = Some s ->
  split_on is_paren s = t :: v :: a :: rest ->
  exists r,
    build_conference_paper_item lib (Some (PyStr text)) u pdf
    = Ok {| record := ConferencePaper r; record_format := "hepcrawl" |}
    /\ date_published r = date /\ journal_year r = year
    /\ journal_title r = t /\ journal_volume r = v /\ journal_artid r = a
    /\ urls r = [u] /\ _fft r = [ {| path := pdf |} ].
Proof.
  intros selector Hlicenses Hdate Hs Hparts.
  unfold build_conference_paper_item. simpl. fold selector.
  rewrite Hlicenses, bind_Ok, Hdate, bind_Ok, Hs.
  unfold _get_journal_title, _get_journal_volume, _get_journal_artid. simpl.
  rewrite Hparts. simpl. eexists. split; [reflexivity|]. repeat split.
Qed.

(** Without an identifier in the stored record no paper item is built. *)
Lemma build_conference_paper_item_no_identifier text u pdf :
  extract_first (xpath_text Relative identifier_path
                   (remove_namespaces lib (Selector_xml lib text))) = None ->
  exists e, build_conference_paper_item lib (Some (PyStr text)) u pdf = Raise e.
Proof.
  intros Hid. unfold build_conference_paper_item. simpl.
  destruct (get_licenses lib _) as [licenses|e]; simpl; [|eauto].
  destruct (_get_date lib _) as [[date year]|e]; simpl; [|eauto].
  rewrite Hid. simpl. eauto.
Qed.

(** C5, amended: the language of the paper record is absent when the
    source record has the language code "en" and also when it has no
    language code at all; any other code is carried through
    unchanged. *)
Theorem language_absent_iff_en_or_missing text u pdf item r :
  build_conference_paper_item lib (Some (PyStr text)) u pdf = Ok item ->
  record item = ConferencePaper r ->
  match extract_first (xpath_text Relative language_path
                         (remove_namespaces lib (Selector_xml lib text))) with
  | None => language r = None
  | Some code => if String.eqb code "en" then language r = None else language r = Some code
  end.
Proof.
  intros Hbuild Hr.
  apply build_conference_paper_item_Ok in Hbuild
    as (text' & s & t & v & a & rest & r' & [= <-] & _ & _ & Hr' & _ & _ & _ & Hlang & _).
  rewrite Hr in Hr'. injection Hr' as <-.
  rewrite Hlang. unfold _get_language.
  destruct (extract_first (xpath_text Relative language_path _)) as [code|];
    [|reflexivity].
  destruct (String.eqb code "en"); reflexivity.
Qed.

End Records.

(** ** The callbacks *)

Lemma filter_none {A} (f : A -> bool) (l : list A) :
  (forall a, In a l -> f a = false) -> List.filter f l = [].
Proof.
  induction l as [|x l IH]; simpl; intros H; [reflexivity|].
  rewrite (H x) by auto. apply IH. auto.
Qed.

Lemma no_pdf_anchor_raises lib self html :
  (forall a, In a (anchors (Selector_html lib html)) -> is_pdf_anchor a = false) ->
  _get_conference_paper_pdf_url lib self html
  = Raise (PoSExtractionException (NoPdfUrl html)).
Proof.
  intros Hnone. unfold _get_conference_paper_pdf_url, pdf_hrefs.
  rewrite (filter_none _ _ Hnone). reflexivity.
Qed.

(** On a spider that [__init__] made, the pdf link is never returned. *)
Lemma _get_conference_paper_pdf_url_init lib args html :
  _get_conference_paper_pdf_url lib (__init__ args) html
  = Raise (match extract_first (pdf_hrefs (Selector_html lib html)) with
           | Some rel =>
               if String.eqb rel "" then PoSExtractionException (NoPdfUrl html)
               else AttributeError
           | None => PoSExtractionException (NoPdfUrl html)
           end).
Proof.
  unfold _get_conference_paper_pdf_url. cbv zeta.
  destruct (extract_first (pdf_hrefs _)) as [rel|]; [|reflexivity].
  destruct (String.eqb rel ""); [reflexivity|].
  rewrite init_base_conference_paper_url. reflexivity.
Qed.

(** On a spider that [__init__] made, no request for a paper page is
    made. *)
Lemma get_conference_paper_page_request_init lib args xml_selector m :
  get_conference_paper_page_request lib (__init__ args) xml_selector m
  = Raise AttributeError.
Proof.
  unfold get_conference_paper_page_request. cbv zeta.
  rewrite init_base_conference_paper_url. reflexivity.
Qed.

Lemma yield_requests_raise (f : node -> result Request) e records :
  (forall r, f r = Raise e) ->
  yield_requests (map f records)
  = ([], match records with [] => None | _ :: _ => Some e end).
Proof.
  intros Hf. destruct records as [|r records]; [reflexivity|].
  simpl. rewrite Hf. reflexivity.
Qed.

Lemma parse_init lib args response :
  parse lib (__init__ args) response
  = ([], match xpath_elements Relative ["record"]
                 (remove_namespaces lib (Selector_xml lib (body response))) with
         | [] => None
         | _ :: _ => Some AttributeError
         end).
Proof.
  unfold parse. cbv zeta. apply yield_requests_raise.
  intros r. apply get_conference_paper_page_request_init.
Qed.



(** C1: on a spider that [__init__] made, the callback of the paper
    page yields nothing, whatever the response is: it stops at the pdf
    link, before the paper record is built, with the spider's own
    exception when the page has no pdf link (or an empty one first)
    and with an [AttributeError] when it has one.  So it is for the
    page of the specification's example, which has a pdf link, and a
    well-formed record. *)
Theorem paper_record_never_emitted :
  (forall lib args (response : Response),
      parse_conference_paper lib (__init__ args) response
      = ([], Some (match extract_first
                           (pdf_hrefs (Selector_html lib (body response))) with
                   | Some rel =>
                       if String.eqb rel ""
                       then PoSExtractionException (NoPdfUrl (body response))
                       else AttributeError
                   | None => PoSExtractionException (NoPdfUrl (body response))
                   end)))
  /\ extract_first (pdf_hrefs (Selector_html Sample.lib Sample.paper_page_html))
     = Some "/999/pdf"
  /\ parse_conference_paper Sample.lib Sample.spider Sample.paper_response
     = ([], Some AttributeError).
Proof.
  split; [|split; vm_compute; reflexivity].
  intros lib args response. unfold parse_conference_paper, parsed_conference_paper.
  rewrite _get_conference_paper_pdf_url_init. reflexivity.
Qed.

(** C2: when no anchor of the paper page has a text that contains
    "pdf", the callback of the paper page raises the spider's
    exception before it yields anything: no paper record, and no
    request for the proceedings page, so no proceedings record
    either. *)
Theorem no_pdf_link_no_record lib self (response : Response) :
  (forall a, In a (anchors (Selector_html lib (body response))) ->
             is_pdf_anchor a = false) ->
  parse_conference_paper lib self response
  = ([], Some (PoSExtractionException (NoPdfUrl (body response)))).
Proof.
  intros Hnone. unfold parse_conference_paper, parsed_conference_paper.
  rewrite (no_pdf_anchor_raises _ _ _ Hnone). reflexivity.
Qed.





(** ** Authors *)

Section Authors.

Variable lib : collaborators.

Lemma fold_add_affiliation affs : forall d,
  fold_left add_affiliation affs d =
  {| raw_name := raw_name d;
     affiliations :=
       match affs, affiliations d with
       | [], old => old
       | _ :: _, Some l => Some (l ++ map (fun a => {| value := a |}) affs)
       | _ :: _, None => Some (map (fun a => {| value := a |}) affs)
       end |}.
Proof.
  induction affs as [|a affs IH]; intros [name old]; simpl; [reflexivity|].
  rewrite IH. unfold add_affiliation. simpl.
  destruct old as [l|]; simpl; destruct affs; simpl; rewrite <- ?app_assoc; reflexivity.
Qed.

(** The entry of a creator: the first text below a [name] element, or
    the empty string, under [raw_name]; the texts below [affiliation]
    elements, in document order, under [affiliations] when there is
    one at least. *)
Lemma author_of_fields creator :
  let author := Selector_html lib (extract lib creator) in
  author_of lib creator =
  {| raw_name := Some (default "" (head (xpath_text_below "name" author)));
     affiliations :=
       match xpath_text_below "affiliation" author with
       | [] => None
       | affs => Some (map (fun a => {| value := a |}) affs)
       end |}.
Proof.
  intros author. unfold author_of. fold author. rewrite fold_add_affiliation. simpl.
  f_equal.
  - destruct (xpath_text_below "name" author); reflexivity.
  - destruct (xpath_text_below "affiliation" author); reflexivity.
Qed.

Lemma author_of_nonempty creator : dict_nonempty (author_of lib creator) = true.
Proof. rewrite author_of_fields. reflexivity. Qed.

Lemma fold_authors creators : forall acc,
  fold_left (fun authors creator =>
               let d := author_of lib creator in
               if dict_nonempty d then authors ++ [d] else authors)
            creators acc
  = acc ++ map (author_of lib) creators.
Proof.
  induction creators as [|c creators IH]; intros acc; simpl.
  - rewrite app_nil_r. reflexivity.
  - rewrite author_of_nonempty, IH, <- app_assoc. reflexivity.
Qed.

(** The test [if auth_dict:] never fails: every creator element gets
    an entry, in order. *)
Lemma _get_authors_all selector :
  _get_authors lib selector
  = map (author_of lib)
        (xpath_elements Relative ["metadata"; "pex-dc"; "creator"] selector).
Proof. unfold _get_authors. apply fold_authors. Qed.

End Authors.

(** C8: every creator element gets an entry, with the first name text
    (or the empty string) and its affiliation texts in order; a creator
    element from which nothing is extracted is not left out: it gets an
    entry whose name is the empty string. *)
Theorem empty_creator_is_included :
  (forall lib selector,
      _get_authors lib selector
      = map (author_of lib)
            (xpath_elements Relative ["metadata"; "pex-dc"; "creator"] selector))
  /\ author_of Sample.lib Sample.creator_empty
     = {| raw_name := Some ""; affiliations := None |}
  /\ _get_authors Sample.lib Sample.paper_empty_creator
     = [Sample.doe_entry; {| raw_name := Some ""; affiliations := None |}].
Proof.
  split; [exact _get_authors_all|]. split; vm_compute; reflexivity.
Qed.

(** * The sample documents, checked *)

(** The builders work on the sample record and on the sample pages. *)
Example paper_item_built :
  build_conference_paper_item Sample.lib (Some (PyStr (Sample.tostring Sample.paper)))
    Sample.paper_url "https://pos.sissa.it/999/pdf"
  = Ok Sample.paper_item.
Proof. vm_compute. reflexivity. Qed.

Example proceedings_item_built :
  parse_conference_proceedings Sample.lib Sample.proceedings_response
  = ([Item {| record := Proceedings
                {| proceedings_collections := ["proceeding"];
                   proceedings_title := Some "Lattice 2013";
                   subtitle := "July 2013, Mainz";
                   proceedings_journal_title := "PoS";
                   proceedings_journal_volume := "2016" |};
              record_format := "hepcrawl" |}], None).
Proof. vm_compute. reflexivity. Qed.

Example py_int_year : py_int (String.substring 0 4 "2016-03-04") = Ok 2016%Z.
Proof. reflexivity. Qed.

(** The spider that the command line makes has the base URLs under
    their upper-case names. *)
Example spider_attributes :
  getattr Sample.spider "BASE_PROCEEDINGS_URL" = Ok (PyStr DEFAULT_BASE_PROCEEDINGS_URL)
  /\ getattr Sample.spider "base_proceedings_url" = Raise AttributeError
  /\ getattr Sample.spider "name" = Ok (PyStr "pos").
Proof. repeat split; vm_compute; reflexivity. Qed.

Lemma no_pdf_link_no_record_witness :
  anchors (Selector_html Sample.lib (body Sample.no_link_response)) = []
  /\ parse_conference_paper Sample.lib Sample.spider Sample.no_link_response
     = ([], Some (PoSExtractionException (NoPdfUrl Sample.no_link_html))).
Proof.
  assert (anchors (Selector_html Sample.lib (body Sample.no_link_response)) = [])
    as Hnone by (vm_compute; reflexivity).
  split; [exact Hnone|].
  apply (no_pdf_link_no_record Sample.lib Sample.spider Sample.no_link_response).
  intros a Ha. rewrite Hnone in Ha. destruct Ha.
Defined.



(** C5, as stated, fails: this record has no language code, so its
    code is not "en", and the paper record built from it has no
    language. *)
Lemma language_absent_without_en :
  exists item r,
    build_conference_paper_item (Parsed.lib Parsed.oai_record) (Some (PyStr ""))
      "https://pos.sissa.it/contribution?id=PoS(LATTICE 2013)001"
      "https://pos.sissa.it/999/pdf" = Ok item
    /\ record item = ConferencePaper r
    /\ language r = None
    /\ extract_first (xpath_text Relative language_path Parsed.oai_record)
       <> Some "en".
Proof.
  eexists _, _. split; [vm_compute; reflexivity|].
  split; [reflexivity|]. split; [reflexivity | vm_compute; discriminate].
Qed.

Lemma language_absent_iff_en_or_missing_witness :
  build_conference_paper_item Sample.lib
    (Some (PyStr (Sample.tostring Sample.paper)))
    Sample.paper_url "https://pos.sissa.it/999/pdf"
  = Ok Sample.paper_item
  /\ extract_first
       (xpath_text Relative language_path
          (remove_namespaces Sample.lib
             (Selector_xml Sample.lib (Sample.tostring Sample.paper))))
     = Some "fr"
  /\ language Sample.paper_record = Some "fr".
Proof.
  assert (build_conference_paper_item Sample.lib
            (Some (PyStr (Sample.tostring Sample.paper)))
            Sample.paper_url "https://pos.sissa.it/999/pdf"
          = Ok Sample.paper_item) as Hbuild by (vm_compute; reflexivity).
  split; [exact Hbuild|]. split; [vm_compute; reflexivity|].
  exact (language_absent_iff_en_or_missing Sample.lib (Sample.tostring Sample.paper)
           Sample.paper_url "https://pos.sissa.it/999/pdf"
           Sample.paper_item Sample.paper_record Hbuild eq_refl).
Defined.





(** * Further properties *)

(** ** Pieces of a split *)

Lemma split_on_length sep s : length (split_on sep s) = S (count_sep sep s).
Proof.
  induction s as [|c s IH]; simpl; [reflexivity|].
  destruct (sep c); simpl; [rewrite IH; reflexivity|].
  destruct (split_on sep s); simpl in *; [discriminate | exact IH].
Qed.

Lemma split_on_pieces_free sep s :
  Forall (fun piece => free_of sep piece = true) (split_on sep s).
Proof.
  induction s as [|c s IH]; simpl.
  - repeat constructor.
  - destruct (sep c) eqn:Hc.
    + constructor; [reflexivity | exact IH].
    + destruct (split_on sep s) as [|w ws]; [repeat constructor; simpl; now rewrite Hc|].
      inversion IH as [|? ? Hw Hws]; subst.
      constructor; [simpl; rewrite Hc; exact Hw | exact Hws].
Qed.

Lemma free_of_count sep s : free_of sep s = true <-> count_sep sep s = 0%nat.
Proof.
  induction s as [|c s IH]; simpl; [tauto|].
  destruct (sep c); simpl; [split; [discriminate | lia] | exact IH].
Qed.

(** The first piece is the text before the first separator. *)
Lemma split_on_head sep s :
  exists first others rest,
    split_on sep s = first :: others
    /\ s = first +:+ rest
    /\ free_of sep first = true
    /\ (rest = "" /\ others = []
        \/ exists c rest', rest = String c rest' /\ sep c = true
                           /\ others = split_on sep rest').
Proof.
  induction s as [|c s IH]; simpl.
  - exists "", [], "". repeat split; auto.
  - destruct (sep c) eqn:Hc.
    + exists "", (split_on sep s), (String c s).
      repeat split; auto. right. exists c, s. auto.
    + destruct IH as (first & others & rest & -> & Hs & Hfree & Hrest).
      exists (String c first), others, rest. repeat split.
      * change (String c s = String c (first +:+ rest)). f_equal. exact Hs.
      * simpl. rewrite Hc. exact Hfree.
      * exact Hrest.
Qed.

Lemma nth_error_pieces_free sep s i piece :
  nth_error (split_on sep s) i = Some piece -> free_of sep piece = true.
Proof.
  intros Hnth. apply nth_error_In in Hnth.
  pose proof (split_on_pieces_free sep s) as Hall.
  rewrite List.Forall_forall in Hall. auto.
Qed.

Lemma py_index_cases {A} (l : list A) i :
  (exists a, py_index l i = Ok a /\ nth_error l i = Some a /\ (i < length l)%nat)
  \/ (py_index l i = Raise IndexError /\ (length l <= i)%nat).
Proof.
  unfold py_index. destruct (nth_error l i) as [a|] eqn:E.
  - left. exists a. repeat split. apply nth_error_Some. congruence.
  - right. split; [reflexivity|]. apply nth_error_None, E.
Qed.

(** X1: how many parentheses the identifier needs.  The title is
    always found; the volume is found exactly when the identifier has
    one parenthesis at least, the article id exactly when it has two
    at least, and [IndexError] is raised otherwise; on [None] the three
    raise [TypeError]. *)
Theorem journal_reference_needs_parentheses :
  (forall s : string,
      (exists t, _get_journal_title (Some s) = Ok t)
      /\ ((exists v, _get_journal_volume (Some s) = Ok v)
          <-> (1 <= count_sep is_paren s)%nat)
      /\ ((exists a, _get_journal_artid (Some s) = Ok a)
          <-> (2 <= count_sep is_paren s)%nat)
      /\ (count_sep is_paren s = 0%nat
          -> _get_journal_volume (Some s) = Raise IndexError)
      /\ ((count_sep is_paren s < 2)%nat
          -> _get_journal_artid (Some s) = Raise IndexError))
  /\ _get_journal_title None = Raise TypeError
  /\ _get_journal_volume None = Raise TypeError
  /\ _get_journal_artid None = Raise TypeError.
Proof.
  split; [|repeat split].
  intros s. unfold _get_journal_title, _get_journal_volume, _get_journal_artid.
  simpl. pose proof (split_on_length is_paren s) as Hlen.
  destruct (py_index_cases (split_on is_paren s) 0) as [(t & Ht & _) | [_ H0]];
    [|rewrite Hlen in H0; lia].
  destruct (py_index_cases (split_on is_paren s) 1) as [(v & Hv & _ & H1) | [Hv H1]];
    destruct (py_index_cases (split_on is_paren s) 2) as [(a & Ha & _ & H2) | [Ha H2]];
    rewrite Ht, Hv, Ha, Hlen in *;
    (split; [eauto|]);
    repeat split; intros; try lia; eauto;
    match goal with
    | H : exists _, Raise _ = Ok _ |- _ => destruct H; discriminate
    end.
Qed.

(** X2: the journal title is the identifier up to its first
    parenthesis (the whole identifier when it has none), and none of
    the three pieces contains a parenthesis. *)
Theorem journal_pieces_are_parenthesis_free (s piece : string) :
  _get_journal_title (Some s) = Ok piece
  \/ _get_journal_volume (Some s) = Ok piece
  \/ _get_journal_artid (Some s) = Ok piece ->
  free_of is_paren piece = true
  /\ exists t rest,
       _get_journal_title (Some s) = Ok t
       /\ s = t +:+ rest
       /\ (rest = "" \/ exists c rest', rest = String c rest' /\ is_paren c = true).
Proof.
  intros Hpiece. split.
  - unfold _get_journal_title, _get_journal_volume, _get_journal_artid in Hpiece.
    simpl in Hpiece. unfold py_index in Hpiece.
    destruct Hpiece as [H | [H | H]];
      match type of H with
      | match nth_error ?l ?i with _ => _ end = _ =>
          destruct (nth_error l i) eqn:E; [|discriminate];
          injection H as <-; exact (nth_error_pieces_free _ _ _ _ E)
      end.
  - destruct (split_on_head is_paren s) as (t & others & rest & Hsplit & Hs & _ & Hrest).
    exists t, rest. split; [|split; [exact Hs|]].
    + unfold _get_journal_title. simpl. rewrite Hsplit. reflexivity.
    + destruct Hrest as [[-> _] | (c & rest' & -> & Hc & _)]; [left | right]; eauto.
Qed.

Lemma journal_pieces_are_parenthesis_free_witness :
  _get_journal_volume (Some "PoS(LATTICE 2013)001") = Ok "LATTICE 2013"
  /\ free_of is_paren "LATTICE 2013" = true
  /\ exists t rest,
       _get_journal_title (Some "PoS(LATTICE 2013)001") = Ok t
       /\ "PoS(LATTICE 2013)001" = t +:+ rest
       /\ (rest = "" \/ exists c rest', rest = String c rest' /\ is_paren c = true).
Proof.
  assert (_get_journal_volume (Some "PoS(LATTICE 2013)001") = Ok "LATTICE 2013")
    as Hvolume by reflexivity.
  split; [exact Hvolume|].
  exact (journal_pieces_are_parenthesis_free "PoS(LATTICE 2013)001" "LATTICE 2013"
           (or_intror (or_introl Hvolume))).
Defined.

(** ** The two links of the paper page *)

Lemma In_omap {A B} (f : A -> option B) (l : list A) (b : B) :
  In b (omap f l) <-> exists a, In a l /\ f a = Some b.
Proof.
  rewrite <- list_elem_of_In, list_elem_of_omap.
  split; intros (a & Ha & Hf); exists a; split; auto; apply list_elem_of_In; auto.
Qed.

Lemma head_In {A} (l : list A) (a : A) : head l = Some a -> In a l.
Proof. destruct l; simpl; [discriminate | intros [= ->]; auto]. Qed.

(** The id taken from the page, by the first link that is not the pdf
    link. *)
Lemma proceedings_internal_id_cases page :
  match extract_first (non_pdf_hrefs page) with
  | None => proceedings_internal_id page = Raise AttributeError
  | Some h =>
      if (count_sep is_slash h =? 0)%nat
      then proceedings_internal_id page = Raise IndexError
      else exists seg,
          proceedings_internal_id page = Ok seg
          /\ nth_error (split_on is_slash h) 1 = Some seg
          /\ free_of is_slash seg = true
  end.
Proof.
  unfold proceedings_internal_id.
  destruct (extract_first (non_pdf_hrefs page)) as [h|]; [|reflexivity].
  pose proof (split_on_length is_slash h) as Hlen.
  destruct (py_index_cases (split_on is_slash h) 1)
    as [(seg & -> & Hnth & Hlt) | [-> Hshort]].
  - destruct (Nat.eqb_spec (count_sep is_slash h) 0) as [Hzero|_]; [lia|].
    exists seg. split; [reflexivity|]. split; [exact Hnth|].
    exact (nth_error_pieces_free _ _ _ _ Hnth).
  - destruct (Nat.eqb_spec (count_sep is_slash h) 0) as [_|Hpos]; [reflexivity | lia].
Qed.

(** X3: the link to the proceedings, on a spider that [__init__]
    made.  [_get_proceedings_page_url], the method that the chain
    calls, never returns a URL: it raises [AttributeError] when the
    page has no link besides pdf links, [IndexError] when the first
    such link has no slash, and [AttributeError] again, for the
    attribute it reads, in every other case.  [_get_proceedings_url]
    fails in the same way in the first two cases and otherwise returns
    the base of the proceedings pages followed by the piece of the
    link after its first slash, which has no slash in it. *)
Theorem proceedings_link_outcomes lib args html :
  match extract_first (non_pdf_hrefs (Selector_html lib html)) with
  | None =>
      _get_proceedings_page_url lib (__init__ args) html = Raise AttributeError
      /\ _get_proceedings_url (__init__ args) (Selector_html lib html)
         = Raise AttributeError
  | Some h =>
      if (count_sep is_slash h =? 0)%nat
      then
        _get_proceedings_page_url lib (__init__ args) html = Raise IndexError
        /\ _get_proceedings_url (__init__ args) (Selector_html lib html)
           = Raise IndexError
      else
        _get_proceedings_page_url lib (__init__ args) html = Raise AttributeError
        /\ exists seg,
            nth_error (split_on is_slash h) 1 = Some seg
            /\ free_of is_slash seg = true
            /\ _get_proceedings_url (__init__ args) (Selector_html lib html)
               = Ok (py_str (parameter args "base_proceedings_url"
                               (PyStr DEFAULT_BASE_PROCEEDINGS_URL)) +:+ seg)
  end.
Proof.
  rewrite _get_proceedings_page_url_init, _get_proceedings_url_init.
  pose proof (proceedings_internal_id_cases (Selector_html lib html)) as Hid.
  destruct (extract_first (non_pdf_hrefs (Selector_html lib html))) as [h|].
  - destruct (count_sep is_slash h =? 0)%nat.
    + rewrite Hid. split; reflexivity.
    + destruct Hid as (seg & -> & Hnth & Hfree). split; [reflexivity|].
      exists seg. repeat split; assumption.
  - rewrite Hid. split; reflexivity.
Qed.

Example relative_link_raises :
  extract_first (non_pdf_hrefs Parsed.relative_link_page) = Some "index.html"
  /\ _get_proceedings_page_url (Parsed.lib Parsed.relative_link_page) Sample.spider ""
     = Raise IndexError
  /\ _get_proceedings_url Sample.spider Parsed.relative_link_page = Raise IndexError.
Proof. repeat split; vm_compute; reflexivity. Qed.

(** X4: the pdf link.  The spider's exception is raised exactly when
    the page has no pdf anchor with a href or the first of them has an
    empty href, later pdf anchors are not looked at; the link that is
    found is the href of an anchor whose text contains "pdf"; and on a
    spider that [__init__] made a link that is found is not returned:
    [AttributeError] is raised for the attribute that the method
    reads. *)
Theorem pdf_link_outcomes lib html :
  (forall self,
      _get_conference_paper_pdf_url lib self html
      = Raise (PoSExtractionException (NoPdfUrl html))
      <-> extract_first (pdf_hrefs (Selector_html lib html)) = None
          \/ extract_first (pdf_hrefs (Selector_html lib html)) = Some "")
  /\ (forall rel,
         extract_first (pdf_hrefs (Selector_html lib html)) = Some rel ->
         exists a, In a (anchors (Selector_html lib html))
                   /\ is_pdf_anchor a = true /\ get_attr "href" a = Some rel)
  /\ (forall args rel,
         extract_first (pdf_hrefs (Selector_html lib html)) = Some rel ->
         rel <> "" ->
         _get_conference_paper_pdf_url lib (__init__ args) html = Raise AttributeError).
Proof.
  split; [|split].
  - intros self. unfold _get_conference_paper_pdf_url. cbv zeta.
    destruct (extract_first (pdf_hrefs (Selector_html lib html))) as [rel|].
    + destruct (String.eqb_spec rel "") as [-> | Hne].
      * split; auto.
      * split.
        -- unfold getattr. destruct (self !! "base_conference_paper_url");
             discriminate.
        -- intros [? | [= ?]]; [discriminate | contradiction].
    + split; auto.
  - intros rel Hrel. apply head_In in Hrel. unfold pdf_hrefs in Hrel.
    apply In_omap in Hrel as (a & Ha & Hhref).
    apply filter_In in Ha as [Ha Hpdf]. exists a. auto.
  - intros args rel Hrel Hne. rewrite _get_conference_paper_pdf_url_init, Hrel.
    destruct (String.eqb_spec rel ""); [contradiction | reflexivity].
Qed.

Example empty_href_first :
  pdf_hrefs Parsed.empty_href_page = [""; "/999/pdf"]
  /\ _get_conference_paper_pdf_url (Parsed.lib Parsed.empty_href_page) Sample.spider ""
     = Raise (PoSExtractionException (NoPdfUrl "")).
Proof. split; vm_compute; reflexivity. Qed.

(** X5: when a paper record is built.  The builder returns an item
    exactly when it is handed the text of a record, the licenses and a
    valid date with a year are obtained, and the identifier of the
    record has two parentheses at least. *)
Theorem paper_item_built_exactly_when lib xml_record u pdf :
  (exists item, build_conference_paper_item lib xml_record u pdf = Ok item)
  <-> exists text licenses date year s,
      xml_record = Some (PyStr text)
      /\ get_licenses lib
           (extract_first (xpath_text Relative ["metadata"; "pex-dc"; "rights"]
                             (remove_namespaces lib (Selector_xml lib text))))
         = Ok licenses
      /\ _get_date lib (remove_namespaces lib (Selector_xml lib text)) = Ok (date, year)
      /\ extract_first (xpath_text Relative identifier_path
                          (remove_namespaces lib (Selector_xml lib text))) = Some s
      /\ (2 <= count_sep is_paren s)%nat.
Proof.
  split.
  - intros [item Hbuild]. unfold build_conference_paper_item in Hbuild.
    destruct xml_record as [[|text]|]; simpl in Hbuild; try discriminate.
    destruct (get_licenses lib _) as [licenses|] eqn:Hlicenses;
      simpl in Hbuild; try discriminate.
    destruct (_get_date lib _) as [[date year]|] eqn:Hdate;
      simpl in Hbuild; try discriminate.
    destruct (extract_first (xpath_text Relative identifier_path _)) as [s|] eqn:Hs;
      simpl in Hbuild; try discriminate.
    exists text, licenses, date, year, s. repeat split; try assumption.
    pose proof (split_on_length is_paren s) as Hlen.
    unfold _get_journal_title, _get_journal_volume, _get_journal_artid in Hbuild.
    simpl in Hbuild.
    destruct (split_on is_paren s) as [|t [|v [|a rest]]];
      simpl in Hbuild, Hlen; try discriminate. lia.
  - intros (text & licenses & date & year & s & -> & Hlicenses & Hdate & Hs & Hcount).
    pose proof (split_on_length is_paren s) as Hlen.
    destruct (split_on is_paren s) as [|t [|v [|a rest]]] eqn:Hparts;
      simpl in Hlen; try lia.
    destruct (build_conference_paper_item_succeeds lib text u pdf licenses date year
                s t v a rest Hlicenses Hdate Hs Hparts) as (r & Hbuild & _).
    eauto.
Qed.

(** ** The spider object and its requests *)


(** X21: on a spider that [__init__] made, the request for the
    proceedings page is never made, whatever the context: the spider's
    exception for a missing or empty paper page, and otherwise the
    error of the link: [AttributeError] without a link besides pdf
    links, [IndexError] for a first such link without slash,
    [AttributeError] for the attribute in every other case.  The
    record in the context is not looked at. *)
Theorem proceedings_request_never_made lib args (m : gmap string pyval) :
  get_conference_proceedings_page_request lib (__init__ args) m
  = Raise (match m !! "html_record" with
           | Some (PyStr html) =>
               if String.eqb html "" then PoSExtractionException (EmptyPaperPage m)
               else match extract_first (non_pdf_hrefs (Selector_html lib html)) with
                    | None => AttributeError
                    | Some h =>
                        if (count_sep is_slash h =? 0)%nat then IndexError
                        else AttributeError
                    end
           | _ => PoSExtractionException (EmptyPaperPage m)
           end).
Proof.
  unfold get_conference_proceedings_page_request.
  destruct (m !! "html_record") as [[|html]|]; try reflexivity.
  destruct (String.eqb html ""); [reflexivity|].
  rewrite _get_proceedings_page_url_init.
  pose proof (proceedings_internal_id_cases (Selector_html lib html)) as Hid.
  destruct (extract_first (non_pdf_hrefs (Selector_html lib html))) as [h|].
  - destruct (count_sep is_slash h =? 0)%nat.
    + rewrite Hid. reflexivity.
    + destruct Hid as (seg & -> & _). reflexivity.
  - rewrite Hid. reflexivity.
Qed.

(** ** The callback of the proceedings page *)

Section Requests.

Variable lib : collaborators.


(** X12: the proceedings callback, by the "pos_id" of the context:
    [KeyError] without the entry, [TypeError] when it is [None],
    [IndexError] when it has no parenthesis, and otherwise exactly one
    proceedings item, whatever the page is.  It never yields a
    request. *)
Theorem parse_conference_proceedings_outcome (response : Response) :
  match response_meta response !! "pos_id" with
  | None => parse_conference_proceedings lib response = ([], Some KeyError)
  | Some PyNone => parse_conference_proceedings lib response = ([], Some TypeError)
  | Some (PyStr s) =>
      if (count_sep is_paren s =? 0)%nat
      then parse_conference_proceedings lib response = ([], Some IndexError)
      else exists p,
          parse_conference_proceedings lib response
          = ([Item {| record := Proceedings p; record_format := "hepcrawl" |}], None)
          /\ nth_error (split_on is_paren s) 1 = Some (proceedings_journal_volume p)
          /\ proceedings_journal_title p = "PoS"
          /\ proceedings_collections p = ["proceeding"]
  end.
Proof.
  unfold parse_conference_proceedings.
  destruct (response_meta response !! "pos_id") as [[|s]|]; try reflexivity.
  unfold build_conference_proceedings_item, _get_journal_volume. simpl.
  pose proof (split_on_length is_paren s) as Hlen.
  destruct (py_index_cases (split_on is_paren s) 1)
    as [(v & -> & Hnth & Hlt) | [-> Hshort]]; simpl.
  - destruct (Nat.eqb_spec (count_sep is_paren s) 0) as [Hzero|_]; [lia|].
    eexists. split; [reflexivity|]. simpl. auto.
  - destruct (Nat.eqb_spec (count_sep is_paren s) 0) as [_|Hpos]; [reflexivity | lia].
Qed.

End Requests.


(** ** Document order *)

Lemma node_ind' (P : node -> Prop) :
  (forall s, P (Text s)) ->
  (forall t attrs cs, Forall P cs -> P (Element t attrs cs)) ->
  forall n, P n.
Proof.
  intros HText HElement. fix IH 1. intros [s | t attrs cs].
  - apply HText.
  - apply HElement. induction cs as [|c cs IHcs]; constructor; [apply IH | exact IHcs].
Qed.

Lemma walk_Element anc t attrs cs :
  walk anc (Element t attrs cs)
  = (anc, Element t attrs cs) :: flat_map (walk (Element t attrs cs :: anc)) cs.
Proof.
  assert (forall n l,
             (fix walk_children (l : list node) : list (list node * node) :=
                match l with
                | [] => []
                | c :: l' => walk (n :: anc) c ++ walk_children l'
                end) l
             = flat_map (walk (n :: anc)) l) as Hchildren.
  { intros n l. induction l as [|c l IH]; [reflexivity|].
    simpl flat_map. rewrite <- IH. reflexivity. }
  rewrite <- Hchildren. reflexivity.
Qed.

(** Below the node that a walk starts from, every node has an
    ancestor. *)
Lemma walk_ancestors n : forall anc x,
  In x (walk anc n) -> x = (anc, n) \/ exists pre, fst x = pre ++ n :: anc.
Proof.
  induction n as [s | t attrs cs IH] using node_ind'; intros anc x Hx.
  - destruct Hx as [<- | []]. left. reflexivity.
  - rewrite walk_Element in Hx. destruct Hx as [<- | Hx]; [left; reflexivity|].
    right. apply in_flat_map in Hx as (c & Hc & Hx).
    rewrite List.Forall_forall in IH.
    destruct (IH c Hc _ _ Hx) as [-> | [pre Hpre]].
    + exists []. reflexivity.
    + exists (pre ++ [c]). rewrite Hpre, <- app_assoc. reflexivity.
Qed.

Lemma tail_walk_ancestors n x : In x (tail (walk [] n)) -> fst x <> [].
Proof.
  intros Hx.
  assert (exists pre, fst x = pre ++ [n]) as [pre ->].
  { destruct n as [s | t attrs cs]; [destruct Hx|].
    rewrite walk_Element in Hx. simpl in Hx.
    apply in_flat_map in Hx as (c & Hc & Hx).
    destruct (walk_ancestors _ _ _ Hx) as [-> | [pre Hpre]]; [exists []; reflexivity|].
    exists (pre ++ [c]). rewrite Hpre, <- app_assoc. reflexivity. }
  destruct pre; discriminate.
Qed.

Lemma omap_cons {A B} (f : A -> option B) (x : A) (l : list A) :
  omap f (x :: l) = match f x with Some y => y :: omap f l | None => omap f l end.
Proof. reflexivity. Qed.

(** [.//t] selects the proper descendants that are elements named [t]. *)
Lemma xpath_elements_descendants t ctx :
  xpath_elements Relative [t] ctx = List.filter (is_element_named t) (descendants ctx).
Proof.
  unfold xpath_elements, descendants.
  assert (forall l : list (list node * node),
             (forall x, In x l -> fst x <> []) ->
             omap (fun '(anc, n) =>
                     match n with
                     | Element tag _ _ =>
                         if chain_ok Relative [t] (tag :: map tag_of anc)
                         then Some n else None
                     | Text _ => None
                     end) l
             = List.filter (is_element_named t) (map snd l)) as Hrest.
  { induction l as [|[anc n] l IH]; intros Hanc; [reflexivity|].
    rewrite omap_cons, IH by (intros; apply Hanc; right; assumption).
    assert (anc <> []) as Hne by (apply (Hanc (anc, n)); left; reflexivity).
    destruct n as [s | tag attrs cs]; simpl; [reflexivity|].
    unfold chain_ok. simpl. destruct (String.eqb t tag); [|reflexivity].
    destruct anc; [congruence | reflexivity]. }
  destruct ctx as [s | tag attrs cs]; [reflexivity|].
  rewrite walk_Element, omap_cons.
  replace (chain_ok Relative [t] (tag :: map tag_of [])) with false
    by (unfold chain_ok; simpl; destruct (String.eqb t tag); reflexivity).
  apply Hrest. intros x Hx. apply (tail_walk_ancestors (Element tag attrs cs)).
  rewrite walk_Element. exact Hx.
Qed.

(** X13: on a spider that [__init__] made, [parse] yields no request.
    It goes to the first [record] element that is strictly below the
    root element of the harvested file, and the request for that
    record raises [AttributeError]; without such an element it ends
    with nothing. *)
Theorem parse_yields_no_request lib args (response : Response) :
  parse lib (__init__ args) response
  = ([], match List.filter (is_element_named "record")
                 (descendants (remove_namespaces lib (Selector_xml lib (body response))))
         with
         | [] => None
         | _ :: _ => Some AttributeError
         end).
Proof. rewrite parse_init, xpath_elements_descendants. reflexivity. Qed.

Example parse_envelope :
  parse (Parsed.lib Parsed.envelope) Sample.spider
    {| response_url := "file:///records.xml"; body := ""; response_meta := ∅ |}
  = ([], Some AttributeError).
Proof. vm_compute. reflexivity. Qed.

Example parse_bare_record :
  parse (Parsed.lib Sample.paper) Sample.spider
    {| response_url := "file:///record.xml"; body := ""; response_meta := ∅ |}
  = ([], None).
Proof. vm_compute. reflexivity. Qed.

(** ** The external system number *)

Lemma omap_sublist {A B} (f g : A -> option B) (l : list A) :
  (forall x y, f x = Some y -> g x = Some y) ->
  sublist (omap f l) (omap g l).
Proof.
  intros Hfg. induction l as [|x l IH]; [constructor|].
  rewrite !omap_cons. destruct (f x) as [y|] eqn:Hf.
  - rewrite (Hfg x y Hf). constructor. exact IH.
  - destruct (g x); [constructor|]; exact IH.
Qed.

(** X14: the value of the external system number is the first
    [identifier] text anywhere below the record element, which need not
    be the identifier of [metadata/pex-dc] that the URL and the journal
    reference are made of: the identifiers of [pex-dc] are among the
    texts it is taken from, so it is present whenever the record has an
    identifier, but an identifier in the header of the record comes
    first. *)
Theorem external_system_number_first_identifier :
  (forall selector,
      sublist (xpath_text Relative identifier_path selector)
              (xpath_text Relative ["identifier"] selector))
  /\ (forall selector id,
         extract_first (xpath_text Relative identifier_path selector) = Some id ->
         exists v,
           _get_ext_systems_number selector
           = [ {| institute := "pos"; esn_value := Some v |} ])
  /\ extract_first (xpath_text Relative identifier_path Parsed.oai_record)
     = Some "PoS(LATTICE 2013)001"
  /\ _get_ext_systems_number Parsed.oai_record
     = [ {| institute := "pos";
            esn_value := Some "oai:pos.sissa.it:LATTICE 2013/001" |} ].
Proof.
  assert (forall selector,
             sublist (xpath_text Relative identifier_path selector)
                     (xpath_text Relative ["identifier"] selector)) as Hsub.
  { intros selector. unfold xpath_text. apply omap_sublist.
    intros [anc n] y. destruct n as [s|]; [|discriminate].
    unfold chain_ok, identifier_path. cbn [rev app].
    destruct (map tag_of anc) as [|c1 chain]; cbn [strip_prefix]; [discriminate|].
    destruct (String.eqb "identifier" c1); [|discriminate].
    destruct chain as [|c2 chain]; cbn [strip_prefix]; [discriminate|].
    destruct (String.eqb "pex-dc" c2); [|discriminate].
    destruct chain as [|c3 chain]; cbn [strip_prefix]; [discriminate|].
    destruct (String.eqb "metadata" c3); [|discriminate].
    destruct chain; [discriminate | auto]. }
  split; [exact Hsub|]. split; [|split; vm_compute; reflexivity].
  intros selector id Hid. unfold _get_ext_systems_number.
  specialize (Hsub selector).
  destruct (xpath_text Relative identifier_path selector) as [|x l]; [discriminate|].
  destruct (xpath_text Relative ["identifier"] selector) as [|v l'].
  - apply sublist_nil_r in Hsub. discriminate.
  - exists v. reflexivity.
Qed.

(** ** The year *)

Lemma digits_bound s : forall acc z,
  (0 <= acc)%Z -> digits acc s = Some z ->
  (acc <= z < (acc + 1) * 10 ^ Z.of_nat (String.length s))%Z.
Proof.
  induction s as [|c s IH]; intros acc z Hacc Hz.
  - simpl in *. injection Hz as <-. lia.
  - assert (0 < 10 ^ Z.of_nat (String.length s))%Z as Hpow by (apply Z.pow_pos_nonneg; lia).
    change (String.length (String c s)) with (S (String.length s)).
    rewrite Nat2Z.inj_succ, Z.pow_succ_r by lia.
    cbn [digits] in Hz.
    destruct ((48 <=? nat_of_ascii c)%nat && (nat_of_ascii c <=? 57)%nat) eqn:Hdigit.
    + apply andb_prop in Hdigit as [Hlo Hhi].
      apply Nat.leb_le in Hlo. apply Nat.leb_le in Hhi.
      apply IH in Hz; [|lia]. nia.
    + destruct (String.eqb (lstrip (String c s)) ""); [|discriminate].
      injection Hz as <-. nia.
Qed.

Lemma unsigned_bound s z :
  unsigned s = Some z -> (0 <= z < 10 ^ Z.of_nat (String.length s))%Z.
Proof.
  unfold unsigned. destruct s as [|c s]; [discriminate|].
  destruct ((48 <=? nat_of_ascii c)%nat && (nat_of_ascii c <=? 57)%nat); [|discriminate].
  intros Hz. apply digits_bound in Hz; lia.
Qed.

Lemma lstrip_length s : (String.length (lstrip s) <= String.length s)%nat.
Proof.
  induction s as [|c s IH]; simpl; [lia|].
  destruct (is_blank c); simpl; lia.
Qed.

(** [int] looks at the sign first, then at the digits. *)
Lemma py_int_sign s :
  py_int s =
  match
    match lstrip s with
    | String c s' =>
        if Ascii.eqb c "-" then Z.opp <$> unsigned s'
        else if Ascii.eqb c "+" then unsigned s'
             else unsigned (String c s')
    | EmptyString => unsigned EmptyString
    end
  with
  | Some z => Ok z
  | None => Raise ValueError
  end.
Proof.
  unfold py_int. destruct (lstrip s) as [|c s']; [reflexivity|].
  destruct c as [[] [] [] [] [] [] [] []]; reflexivity.
Qed.

Lemma py_int_bound s z :
  py_int s = Ok z ->
  (- 10 ^ Z.of_nat (String.length s - 1) < z < 10 ^ Z.of_nat (String.length s))%Z.
Proof.
  rewrite py_int_sign. pose proof (lstrip_length s) as Hstrip.
  destruct (lstrip s) as [|c s'] eqn:Hs; [discriminate|].
  change (String.length (String c s')) with (S (String.length s')) in Hstrip.
  assert (0 < 10 ^ Z.of_nat (String.length s - 1))%Z as Hpos by (apply Z.pow_pos_nonneg; lia).
  assert (10 ^ Z.of_nat (String.length s') <= 10 ^ Z.of_nat (String.length s - 1))%Z as Hshort
      by (apply Z.pow_le_mono_r; lia).
  assert (10 ^ Z.of_nat (String.length s - 1) <= 10 ^ Z.of_nat (String.length s))%Z as Hlong
      by (apply Z.pow_le_mono_r; lia).
  assert (10 ^ Z.of_nat (S (String.length s')) <= 10 ^ Z.of_nat (String.length s))%Z as Hwhole
      by (apply Z.pow_le_mono_r; lia).
  destruct (Ascii.eqb c "-"); [|destruct (Ascii.eqb c "+")].
  - destruct (unsigned s') as [u|] eqn:Hu; [|discriminate].
    apply unsigned_bound in Hu. simpl. intros [= <-]. lia.
  - destruct (unsigned s') as [u|] eqn:Hu; [|discriminate].
    apply unsigned_bound in Hu. intros [= <-]. lia.
  - destruct (unsigned (String c s')) as [u|] eqn:Hu; [|discriminate].
    apply unsigned_bound in Hu.
    change (String.length (String c s')) with (S (String.length s')) in Hu.
    intros [= <-]. lia.
Qed.

Lemma substring_length n s : (String.length (String.substring 0 n s) <= n)%nat.
Proof.
  revert s. induction n as [|n IH]; intros [|c s]; simpl; try lia.
  specialize (IH s). lia.
Qed.

(** X15: the year of a record is read from the first four characters
    of the validated date only, so it lies between -999 and 9999; a
    date that is [None] raises [TypeError], and a date whose first four
    characters are not a number raises [ValueError]. *)
Theorem journal_year_bounds lib selector date year :
  _get_date lib selector = Ok (date, year) ->
  (-999 <= year <= 9999)%Z
  /\ py_int (String.substring 0 4 date) = Ok year
  /\ create_valid_date lib
       (extract_first (xpath_text Relative ["metadata"; "pex-dc"; "date"] selector))
     = Ok (Some date).
Proof.
  unfold _get_date.
  destruct (create_valid_date lib _) as [[d|]|]; simpl; try discriminate.
  destruct (py_int (String.substring 0 4 d)) as [y|] eqn:Hy; simpl; [|discriminate].
  intros [= <- <-]. split; [|auto].
  pose proof (py_int_bound _ _ Hy) as Hbound.
  pose proof (substring_length 4 d) as Hlen.
  assert (10 ^ Z.of_nat (String.length (String.substring 0 4 d)) <= 10 ^ 4)%Z
    by (apply Z.pow_le_mono_r; lia).
  assert (10 ^ Z.of_nat (String.length (String.substring 0 4 d) - 1) <= 10 ^ 3)%Z
    by (apply Z.pow_le_mono_r; lia).
  lia.
Qed.

Lemma journal_year_bounds_witness :
  _get_date (Parsed.lib Parsed.oai_record) Parsed.oai_record = Ok ("2014-01-01", 2014%Z)
  /\ (-999 <= 2014 <= 9999)%Z.
Proof.
  assert (_get_date (Parsed.lib Parsed.oai_record) Parsed.oai_record
          = Ok ("2014-01-01", 2014%Z)) as Hdate by (vm_compute; reflexivity).
  split; [exact Hdate|].
  exact (proj1 (journal_year_bounds (Parsed.lib Parsed.oai_record) Parsed.oai_record
                  "2014-01-01" 2014%Z Hdate)).
Defined.

Example _get_date_errors :
  _get_date (Parsed.lib Sample.paper_no_identifier)
    (Sample.record_with [Sample.field "date" "March 2016"]) = Raise ValueError
  /\ _get_date (Parsed.lib Sample.paper_no_identifier)
       (Sample.record_with []) = Raise TypeError.
Proof. split; vm_compute; reflexivity. Qed.

(** ** Authors and language *)

(** X16: the entry of a creator.  The name is always there: the first
    text below a [name] element, or the empty string.  The key
    "affiliations" is there exactly when an [affiliation] element has
    text, and then lists these texts, all of them, in document order. *)
Theorem author_entry_fields lib creator :
  let author := Selector_html lib (extract lib creator) in
  let entry := author_of lib creator in
  raw_name entry = Some (get_first (xpath_text_below "name" author) "")
  /\ (affiliations entry = None <-> xpath_text_below "affiliation" author = [])
  /\ (forall l, affiliations entry = Some l ->
                map value l = xpath_text_below "affiliation" author).
Proof.
  intros author entry. subst entry. rewrite author_of_fields. fold author. simpl.
  assert (forall affs : list string,
             map value (map (fun a => {| value := a |}) affs) = affs) as Hvalues.
  { intros affs. rewrite map_map. simpl. apply map_id. }
  split; [|split].
  - destruct (xpath_text_below "name" author); reflexivity.
  - destruct (xpath_text_below "affiliation" author); split; congruence.
  - intros l. destruct (xpath_text_below "affiliation" author) as [|a affs];
      [discriminate|]. intros [= <-]. exact (Hvalues (a :: affs)).
Qed.

(** X17: a record without language element gets no language field
    either: the field is absent when the code is "en" and when there
    is no code, and in no other case. *)
Theorem language_absent_without_code lib text u pdf item r :
  build_conference_paper_item lib (Some (PyStr text)) u pdf = Ok item ->
  record item = ConferencePaper r ->
  let code :=
    extract_first (xpath_text Relative language_path
                     (remove_namespaces lib (Selector_xml lib text))) in
  (language r = None <-> code = None \/ code = Some "en")
  /\ (forall c, language r = Some c -> code = Some c).
Proof.
  intros Hbuild Hr code.
  apply build_conference_paper_item_Ok in Hbuild
    as (text' & s & t & v & a & rest & r' & [= <-] & _ & _ & Hr' & _ & _ & _ & Hlang & _).
  rewrite Hr in Hr'. injection Hr' as <-.
  rewrite Hlang. unfold _get_language. fold code.
  destruct code as [c|]; [|split; [tauto | discriminate]].
  destruct (String.eqb_spec c "en") as [-> | Hne].
  - split; [tauto | discriminate].
  - split; [|intros ? [= <-]; reflexivity].
    split; [discriminate | intros [? | [= ?]]; congruence].
Qed.

Lemma language_absent_without_code_witness :
  exists item r,
    build_conference_paper_item (Parsed.lib Parsed.oai_record) (Some (PyStr ""))
      "https://pos.sissa.it/contribution?id=PoS(LATTICE 2013)001"
      "https://pos.sissa.it/999/pdf" = Ok item
    /\ record item = ConferencePaper r
    /\ extract_first (xpath_text Relative language_path Parsed.oai_record) = None
    /\ language r = None.
Proof.
  destruct (build_conference_paper_item (Parsed.lib Parsed.oai_record)
              (Some (PyStr ""))
              "https://pos.sissa.it/contribution?id=PoS(LATTICE 2013)001"
              "https://pos.sissa.it/999/pdf") as [item|e] eqn:Hbuild;
    [|vm_compute in Hbuild; discriminate].
  destruct (record item) as [r|p] eqn:Hr;
    [|vm_compute in Hbuild; injection Hbuild as <-; discriminate].
  exists item, r. split; [reflexivity|]. split; [exact Hr|].
  split; [vm_compute; reflexivity|].
  apply (language_absent_without_code (Parsed.lib Parsed.oai_record) ""
           _ _ item r Hbuild Hr).
  left. vm_compute. reflexivity.
Defined.


(** ** What is not checked *)

(** X19: the two kinds of parenthesis are not told apart and their
    order is not checked: an identifier cut by any two parentheses
    gives the same journal reference as the well-formed one, so
    "JHEP01)2016(001" reads like "JHEP01(2016)001". *)
Theorem journal_reference_ignores_parenthesis_kind (t v a : string) (c1 c2 : ascii) :
  free_of is_paren t = true -> free_of is_paren v = true ->
  free_of is_paren a = true ->
  is_paren c1 = true -> is_paren c2 = true ->
  let s := t +:+ String c1 (v +:+ String c2 a) in
  _get_journal_title (Some s) = Ok t
  /\ _get_journal_volume (Some s) = Ok v
  /\ _get_journal_artid (Some s) = Ok a.
Proof.
  intros Ht Hv Ha H1 H2 s.
  unfold _get_journal_title, _get_journal_volume, _get_journal_artid. simpl.
  subst s. rewrite split_on_app by assumption.
  rewrite split_on_app by assumption.
  rewrite split_on_free by assumption. repeat split.
Qed.

Lemma journal_reference_ignores_parenthesis_kind_witness :
  is_paren ")" = true /\ is_paren "(" = true
  /\ _get_journal_title (Some "JHEP01)2016(001") = Ok "JHEP01"
  /\ _get_journal_volume (Some "JHEP01)2016(001") = Ok "2016"
  /\ _get_journal_artid (Some "JHEP01)2016(001") = Ok "001".
Proof.
  split; [reflexivity|]. split; [reflexivity|].
  exact (journal_reference_ignores_parenthesis_kind "JHEP01" "2016" "001" ")" "("
           eq_refl eq_refl eq_refl eq_refl eq_refl).
Defined.

